(** * Verification of [curvlinops.utils] and of the operator interface
    exercised by [test/test_hessian.py]. *)

From Stdlib Require Import Strings.Ascii Strings.String Numbers.DecimalString Numbers.DecimalZ.
From Stdlib Require Import ZArith List Lia Bool Sorting.Sorted.
Import ListNotations.
Open Scope Z_scope.

(** ** Python values used by [split_list] *)

(** Python exceptions raised by the code; they carry their message. *)
Inductive py_exc :=
| ValueError (msg : string)
| ConfigurationError (msg : string)
| ShapeMismatchError (msg : string)
| IndexError (msg : string)
| RuntimeError (msg : string).

(** Result of a Python call that may raise. *)
Inductive py_result (A : Type) :=
| Ok (a : A)
| Raise (e : py_exc).
Arguments Ok {A} a.
Arguments Raise {A} e.

(** Decimal text of an integer, as [str] writes it when no limit applies. *)
Definition dec_str (z : Z) : string := NilEmpty.string_of_int (Z.to_int z).

(** Number of decimal digits of a decimal integer, sign excluded. *)
Definition int_digits (d : Decimal.int) : nat :=
  match d with Decimal.Pos u | Decimal.Neg u => Decimal.nb_digits u end.

(** CPython's default [sys.get_int_max_str_digits()]. *)
Definition int_max_str_digits : nat := 4300.

Definition digit_limit_msg : string :=
  "Exceeds the limit (4300 digits) for integer string conversion; use sys.set_int_max_str_digits() to increase the limit".

(** f-string rendering [{z}] of a Python [int]: CPython refuses, with a
    [ValueError], to convert an integer of more than
    [int_max_str_digits] decimal digits (default limit). *)
Definition py_str_int (z : Z) : py_result string :=
  let d := Z.to_int z in
  if Nat.ltb int_max_str_digits (int_digits d) then Raise (ValueError digit_limit_msg)
  else Ok (NilEmpty.string_of_int d).

(** [len(x)] *)
Definition py_len {A} (x : list A) : Z := Z.of_nat (length x).

(** [sum(sizes)] *)
Definition py_sum (l : list Z) : Z := fold_left Z.add l 0.

(** Python normalisation of a slice bound [k] on a sequence of length [n]:
    negative bounds count from the end, and bounds are clamped to [0, n]. *)
Definition slice_bound (n k : Z) : Z :=
  if k <? 0 then Z.max 0 (k + n) else Z.min k n.

(** [x[i:j]] for a Python list and step 1. *)
Definition py_slice {A} (x : list A) (i j : Z) : list A :=
  let n := py_len x in
  let i' := slice_bound n i in
  let j' := slice_bound n j in
  firstn (Z.to_nat (j' - i')) (skipn (Z.to_nat i') x).

(** [numpy.cumsum] of a 1-D integer array. *)
Fixpoint cumsum_from (acc : Z) (l : list Z) : list Z :=
  match l with
  | [] => []
  | h :: t => (acc + h) :: cumsum_from (acc + h) t
  end.

Definition cumsum (l : list Z) : list Z := cumsum_from 0 l.

(** The text of the [ValueError] raised by [split_list], from the
    renderings [s1] of [len(x)] and [s2] of [sum(sizes)]. *)
Definition split_list_text (s1 s2 : string) : string :=
  ("List to be split has length " ++ s1
   ++ ", but requested sub-list with a total"
   ++ " of " ++ s2 ++ " entries.")%string.

(** The message of the [ValueError] raised by [split_list]: the first
    f-string formats [len(x)], the second [sum(sizes)], then they are
    concatenated; a formatting error propagates. *)
Definition split_list_msg (len_x total : Z) : py_result string :=
  match py_str_int len_x with
  | Raise e => Raise e
  | Ok s1 =>
      match py_str_int total with
      | Raise e => Raise e
      | Ok s2 => Ok (split_list_text s1 s2)
      end
  end.

(** [split_list(x, sizes)] *)
Definition split_list {A} (x : list A) (sizes : list Z) : py_result (list (list A)) :=
  if negb (py_len x =? py_sum sizes) then
    match split_list_msg (py_len x) (py_sum sizes) with
    | Ok msg => Raise (ValueError msg)
    | Raise e => Raise e
    end
  else
    let boundaries := cumsum (0 :: sizes) in
    Ok (map (fun i => py_slice x (nth i boundaries 0) (nth (S i) boundaries 0))
            (seq 0 (length sizes))).

Example split_list_ex1 :
  split_list [1;2;3;4;5] [2;3] = Ok [[1;2];[3;4;5]].
Proof. reflexivity. Qed.

Example split_list_ex2 :
  split_list [1;2] [1] = Raise (ValueError
    "List to be split has length 2, but requested sub-list with a total of 1 entries.").
Proof. reflexivity. Qed.

Example split_list_ex3 :
  split_list [1;2;3] [-1;4] = Ok [[1;2];[3]].
Proof. reflexivity. Qed.

(** The order-preserving contiguous partition that the docstring of
    [split_list] describes: sub-list [i] takes the next [sizes[i]] items. *)
Fixpoint chunks {A} (x : list A) (sizes : list Z) : list (list A) :=
  match sizes with
  | [] => []
  | s :: ss => firstn (Z.to_nat s) x :: chunks (skipn (Z.to_nat s) x) ss
  end.

(** [s] occurs inside [msg]. *)
Definition substring (s msg : string) : Prop :=
  exists p q, msg = (p ++ s ++ q)%string.

(** ** Lemmas on [split_list] *)

Lemma fold_left_add_acc (l : list Z) (acc : Z) :
  fold_left Z.add l acc = acc + fold_left Z.add l 0.
Proof.
  revert acc; induction l as [|h t IH]; intro acc; simpl; [lia|].
  rewrite (IH (acc + h)), (IH h). lia.
Qed.

Lemma py_sum_cons (s : Z) (ss : list Z) : py_sum (s :: ss) = s + py_sum ss.
Proof. unfold py_sum; simpl; apply fold_left_add_acc. Qed.

Lemma py_sum_nonneg (sizes : list Z) :
  Forall (fun s => 0 <= s) sizes -> 0 <= py_sum sizes.
Proof.
  induction 1; [reflexivity|]. rewrite py_sum_cons; lia.
Qed.

Lemma py_slice_in_range {A} (x : list A) (a s : Z) :
  0 <= a -> 0 <= s -> a + s <= py_len x ->
  py_slice x a (a + s) = firstn (Z.to_nat s) (skipn (Z.to_nat a) x).
Proof.
  intros Ha Hs Hn. unfold py_slice, slice_bound.
  destruct (a <? 0) eqn:E1; [apply Z.ltb_lt in E1; lia|].
  destruct (a + s <? 0) eqn:E2; [apply Z.ltb_lt in E2; lia|].
  rewrite Z.min_l by lia. rewrite Z.min_l by lia.
  f_equal. f_equal. lia.
Qed.

Lemma split_list_comprehension {A} (x : list A) (sizes : list Z) (a : Z) :
  Forall (fun s => 0 <= s) sizes -> 0 <= a -> a + py_sum sizes <= py_len x ->
  map (fun i => py_slice x (nth i (a :: cumsum_from a sizes) 0)
                           (nth (S i) (a :: cumsum_from a sizes) 0))
      (seq 0 (length sizes))
  = chunks (skipn (Z.to_nat a) x) sizes.
Proof.
  intros Hs. revert a. induction Hs as [|s ss Hs0 Hss IH]; intros a Ha Hn;
    [reflexivity|].
  rewrite py_sum_cons in Hn. pose proof (py_sum_nonneg ss Hss).
  simpl length. cbn [seq map]. rewrite <- seq_shift, map_map.
  cbn [chunks cumsum_from nth].
  rewrite py_slice_in_range by lia. f_equal.
  rewrite skipn_skipn.
  replace (Z.to_nat s + Z.to_nat a)%nat with (Z.to_nat (a + s)) by lia.
  apply (IH (a + s)); lia.
Qed.

Lemma split_list_ok {A} (x : list A) (sizes : list Z) :
  Forall (fun s => 0 <= s) sizes -> py_len x = py_sum sizes ->
  split_list x sizes = Ok (chunks x sizes).
Proof.
  intros Hs Hn. unfold split_list. rewrite Hn, Z.eqb_refl. simpl negb.
  cbv iota. f_equal.
  exact (split_list_comprehension x sizes 0 Hs ltac:(lia) ltac:(lia)).
Qed.

Lemma chunks_concat {A} (x : list A) (sizes : list Z) :
  Forall (fun s => 0 <= s) sizes -> py_len x = py_sum sizes ->
  concat (chunks x sizes) = x.
Proof.
  intros Hs. revert x. induction Hs as [|s ss Hs0 Hss IH]; intros x Hn.
  - destruct x; [reflexivity|]. unfold py_len, py_sum in Hn; simpl in Hn; lia.
  - rewrite py_sum_cons in Hn. pose proof (py_sum_nonneg ss Hss).
    cbn [chunks concat]. rewrite IH; [apply firstn_skipn|].
    unfold py_len in *. rewrite length_skipn. lia.
Qed.

Lemma chunks_lengths {A} (x : list A) (sizes : list Z) :
  Forall (fun s => 0 <= s) sizes -> py_len x = py_sum sizes ->
  Forall2 (fun c s => py_len c = s) (chunks x sizes) sizes.
Proof.
  intros Hs. revert x. induction Hs as [|s ss Hs0 Hss IH]; intros x Hn;
    [constructor|].
  rewrite py_sum_cons in Hn. pose proof (py_sum_nonneg ss Hss).
  cbn [chunks]. constructor.
  - unfold py_len in *. rewrite length_firstn. lia.
  - apply IH. unfold py_len in *. rewrite length_skipn. lia.
Qed.

Lemma str_app_assoc (a b c : string) :
  (a ++ (b ++ c))%string = ((a ++ b) ++ c)%string.
Proof. induction a as [|ch a IH]; simpl; [reflexivity|]. rewrite IH; reflexivity. Qed.

(** [str(z)] succeeds exactly when [z] has at most [int_max_str_digits]
    decimal digits. *)
Definition fits_str_digits (z : Z) : bool :=
  Nat.leb (int_digits (Z.to_int z)) int_max_str_digits.

Lemma py_str_int_fits (z : Z) :
  fits_str_digits z = true -> py_str_int z = Ok (dec_str z).
Proof.
  unfold fits_str_digits, py_str_int, dec_str. intro H. apply Nat.leb_le in H.
  destruct (Nat.ltb int_max_str_digits (int_digits (Z.to_int z))) eqn:E;
    [apply Nat.ltb_lt in E; lia | reflexivity].
Qed.

Lemma py_str_int_too_long (z : Z) :
  fits_str_digits z = false -> py_str_int z = Raise (ValueError digit_limit_msg).
Proof.
  unfold fits_str_digits, py_str_int. intro H. apply Nat.leb_gt in H.
  destruct (Nat.ltb int_max_str_digits (int_digits (Z.to_int z))) eqn:E;
    [reflexivity | apply Nat.ltb_ge in E; lia].
Qed.

Lemma split_list_msg_cases (a b : Z) :
  split_list_msg a b =
  if fits_str_digits a && fits_str_digits b
  then Ok (split_list_text (dec_str a) (dec_str b))
  else Raise (ValueError digit_limit_msg).
Proof.
  unfold split_list_msg. destruct (fits_str_digits a) eqn:Ha.
  - rewrite (py_str_int_fits a Ha). destruct (fits_str_digits b) eqn:Hb.
    + rewrite (py_str_int_fits b Hb). reflexivity.
    + rewrite (py_str_int_too_long b Hb). reflexivity.
  - rewrite (py_str_int_too_long a Ha). reflexivity.
Qed.

Lemma split_list_mismatch {A} (x : list A) (sizes : list Z) :
  py_len x <> py_sum sizes ->
  split_list x sizes =
  if fits_str_digits (py_len x) && fits_str_digits (py_sum sizes)
  then Raise (ValueError (split_list_text (dec_str (py_len x)) (dec_str (py_sum sizes))))
  else Raise (ValueError digit_limit_msg).
Proof.
  intro Hne. unfold split_list. apply Z.eqb_neq in Hne. rewrite Hne. simpl negb.
  cbv iota. rewrite split_list_msg_cases.
  destruct (fits_str_digits (py_len x) && fits_str_digits (py_sum sizes)); reflexivity.
Qed.

Lemma split_list_text_contains (s1 s2 : string) :
  substring s1 (split_list_text s1 s2) /\ substring s2 (split_list_text s1 s2).
Proof.
  split.
  - exists "List to be split has length "%string. eexists. reflexivity.
  - exists ("List to be split has length " ++ s1
       ++ ", but requested sub-list with a total" ++ " of ")%string.
    exists " entries."%string. unfold split_list_text.
    rewrite !str_app_assoc. reflexivity.
Qed.

Lemma str_length_app (s t : string) :
  String.length (s ++ t) = (String.length s + String.length t)%nat.
Proof. induction s as [|c s IH]; simpl; [reflexivity | rewrite IH; reflexivity]. Qed.

Lemma substring_length (s msg : string) :
  substring s msg -> (String.length s <= String.length msg)%nat.
Proof.
  intros (p & q & ->). rewrite !str_length_app. lia.
Qed.

Lemma length_string_of_uint (d : Decimal.uint) :
  String.length (NilEmpty.string_of_uint d) = Decimal.nb_digits d.
Proof. induction d; simpl; auto. Qed.

(** [n] zero digits. *)
Fixpoint dzeros (n : nat) : Decimal.uint :=
  match n with
  | O => Decimal.Nil
  | S n => Decimal.D0 (dzeros n)
  end.

(** [10 ** int_max_str_digits], the smallest integer of
    [int_max_str_digits + 1] digits. *)
Definition big_int : Z := Z.of_int (Decimal.Pos (Decimal.D1 (dzeros int_max_str_digits))).

Lemma nb_digits_dzeros (n : nat) : Decimal.nb_digits (dzeros n) = n.
Proof. induction n; simpl; auto. Qed.

Lemma to_int_big_int :
  Z.to_int big_int = Decimal.Pos (Decimal.D1 (dzeros int_max_str_digits)).
Proof. unfold big_int. rewrite DecimalZ.to_of. reflexivity. Qed.

Lemma big_int_too_long : fits_str_digits big_int = false.
Proof.
  unfold fits_str_digits. rewrite to_int_big_int. cbn [int_digits Decimal.nb_digits].
  rewrite nb_digits_dzeros. apply Nat.leb_gt. lia.
Qed.

Lemma big_int_nonzero : big_int <> 0.
Proof.
  intro H. pose proof to_int_big_int as E. rewrite H in E. discriminate E.
Qed.

Lemma length_dec_str_big_int : String.length (dec_str big_int) = S int_max_str_digits.
Proof.
  unfold dec_str. rewrite to_int_big_int. cbn [NilEmpty.string_of_int].
  rewrite length_string_of_uint. cbn [Decimal.nb_digits]. rewrite nb_digits_dzeros.
  reflexivity.
Qed.

Lemma length_digit_limit_msg : (String.length digit_limit_msg < S int_max_str_digits)%nat.
Proof. apply Nat.ltb_lt. reflexivity. Qed.

(** ** Claims on [split_list] *)

(** C2 (as stated, refuted): whenever [sum(sizes) != len(x)],
    [split_list(x, sizes)] raises a [ValueError] whose message contains both
    the list length and the requested total.  It fails for
    [split_list([], [10 ** 4300])]: rendering the total in the f-string
    exceeds CPython's 4300-digit limit, and the [ValueError] raised carries
    the limit message, which contains no rendering of the total. *)
Theorem split_list_mismatch_raises_counterexample :
  ~ (forall (x : list Z) (sizes : list Z), py_len x <> py_sum sizes ->
     exists msg, split_list x sizes = Raise (ValueError msg)
       /\ substring (dec_str (py_len x)) msg
       /\ substring (dec_str (py_sum sizes)) msg).
Proof.
  intro H.
  assert (Hs : py_sum [big_int] = big_int).
  { unfold py_sum. cbn [fold_left]. apply Z.add_0_l. }
  assert (Hl : py_len (@nil Z) = 0) by reflexivity.
  assert (Hne : py_len (@nil Z) <> py_sum [big_int]).
  { rewrite Hs, Hl. intro E. apply big_int_nonzero. symmetry. exact E. }
  destruct (H [] [big_int] Hne) as (msg & Hr & _ & Hsub).
  rewrite (split_list_mismatch [] [big_int] Hne) in Hr.
  rewrite Hs, Hl, big_int_too_long, andb_false_r in Hr.
  injection Hr as Hm. rewrite Hs, <- Hm in Hsub.
  apply substring_length in Hsub. rewrite length_dec_str_big_int in Hsub.
  pose proof length_digit_limit_msg. lia.
Qed.

(** C2 (amended): whenever [sum(sizes) != len(x)], [split_list(x, sizes)]
    raises a [ValueError]; when [len(x)] and [sum(sizes)] both have at most
    4300 decimal digits (CPython's default [int] to [str] limit) its message
    contains the decimal renderings of both, otherwise the message is
    CPython's digit-limit message. *)
Theorem split_list_mismatch_raises {A} (x : list A) (sizes : list Z) :
  py_len x <> py_sum sizes ->
  exists msg, split_list x sizes = Raise (ValueError msg)
    /\ (fits_str_digits (py_len x) = true -> fits_str_digits (py_sum sizes) = true ->
        substring (dec_str (py_len x)) msg /\ substring (dec_str (py_sum sizes)) msg)
    /\ (fits_str_digits (py_len x) = false \/ fits_str_digits (py_sum sizes) = false ->
        msg = digit_limit_msg).
Proof.
  intro Hne. rewrite (split_list_mismatch x sizes Hne).
  destruct (fits_str_digits (py_len x)) eqn:Ha, (fits_str_digits (py_sum sizes)) eqn:Hb;
    cbn [andb].
  - eexists. split; [reflexivity|]. split.
    + intros _ _. apply split_list_text_contains.
    + intros [E|E]; discriminate E.
  - eexists. split; [reflexivity|]. split; [intros _ E; discriminate E | reflexivity].
  - eexists. split; [reflexivity|]. split; [intros E; discriminate E | reflexivity].
  - eexists. split; [reflexivity|]. split; [intros E; discriminate E | reflexivity].
Qed.

Lemma split_list_mismatch_raises_witness :
  py_len [1;2] <> py_sum [1] /\
  exists msg, split_list [1;2] [1] = Raise (ValueError msg)
    /\ (fits_str_digits (py_len [1;2]) = true -> fits_str_digits (py_sum [1]) = true ->
        substring (dec_str (py_len [1;2])) msg /\ substring (dec_str (py_sum [1])) msg)
    /\ (fits_str_digits (py_len [1;2]) = false \/ fits_str_digits (py_sum [1]) = false ->
        msg = digit_limit_msg).
Proof.
  split; [vm_compute; discriminate|].
  apply (split_list_mismatch_raises [1;2] [1]). vm_compute; discriminate.
Defined.

(** C3 (as stated, refuted): with a negative entry, [sizes = [-1; 4]] sums
    to [len(x) = 3], yet Python's negative slice bounds give a first
    sub-list of two items, not [-1]. *)
Lemma split_list_negative_size_counterexample :
  ~ (forall (x : list Z) (sizes : list Z), py_len x = py_sum sizes ->
       exists r, split_list x sizes = Ok r
         /\ Forall2 (fun c s => py_len c = s) r sizes).
Proof.
  intro H. destruct (H [1;2;3] [-1;4] eq_refl) as [r [E F]].
  vm_compute in E. injection E as <-. inversion F as [|c s cs ss Hc]; subst.
  vm_compute in Hc. discriminate.
Qed.

(** C3 (amended): for non-negative [sizes] with [sum(sizes) == len(x)],
    [split_list(x, sizes)] returns the contiguous, order-preserving partition
    [chunks x sizes] of [x]: its concatenation is [x] and sub-list [i] has
    exactly [sizes[i]] items; in particular
    [split_list([a,b,c,d,e], [2,3]) == [[a,b],[c,d,e]]]. *)
Theorem split_list_partition {A} (x : list A) (sizes : list Z) :
  Forall (fun s => 0 <= s) sizes -> py_len x = py_sum sizes ->
  split_list x sizes = Ok (chunks x sizes)
  /\ concat (chunks x sizes) = x
  /\ Forall2 (fun c s => py_len c = s) (chunks x sizes) sizes
  /\ (forall (a b c d e : A), split_list [a;b;c;d;e] [2;3] = Ok [[a;b];[c;d;e]]).
Proof.
  intros Hs Hn. split; [apply split_list_ok; assumption|].
  split; [apply chunks_concat; assumption|].
  split; [apply chunks_lengths; assumption|].
  intros; reflexivity.
Qed.

Lemma split_list_partition_witness :
  split_list [10;20;30;40;50] [2;3] = Ok (chunks [10;20;30;40;50] [2;3])
  /\ concat (chunks [10;20;30;40;50] [2;3]) = [10;20;30;40;50]
  /\ Forall2 (fun c s => py_len c = s) (chunks [10;20;30;40;50] [2;3]) [2;3]
  /\ (forall (a b c d e : Z), split_list [a;b;c;d;e] [2;3] = Ok [[a;b];[c;d;e]]).
Proof.
  apply (split_list_partition [10;20;30;40;50] [2;3]);
    [repeat constructor; lia | reflexivity].
Defined.

(** C10: for non-negative [sizes] with [sum(sizes) == len(x)], the result of
    [split_list(x, sizes)] concatenates back to [x], has [len(sizes)]
    sub-lists, a size [0] yields an empty sub-list, and
    [split_list([], []) == []]. *)
Theorem split_list_concat_length {A} (x : list A) (sizes : list Z) :
  Forall (fun s => 0 <= s) sizes -> py_len x = py_sum sizes ->
  exists r, split_list x sizes = Ok r
    /\ concat r = x
    /\ length r = length sizes
    /\ (forall i, (i < length sizes)%nat -> nth i sizes 0 = 0 -> nth i r [] = [])
    /\ split_list (@nil A) [] = Ok [].
Proof.
  intros Hs Hn. exists (chunks x sizes).
  pose proof (chunks_lengths x sizes Hs Hn) as HF.
  split; [apply split_list_ok; assumption|].
  split; [apply chunks_concat; assumption|].
  split; [exact (Forall2_length HF)|].
  split; [|reflexivity].
  clear Hs Hn. induction HF as [|c s cs ss Hc HF IH]; intros i Hi H0;
    [simpl in Hi; lia|].
  destruct i as [|i]; simpl in *.
  - rewrite H0 in Hc. destruct c; [reflexivity|]. unfold py_len in Hc; simpl in Hc; lia.
  - apply IH; [lia|assumption].
Qed.

Lemma split_list_concat_length_witness :
  exists r, split_list [7;8;9] [2;0;1] = Ok r
    /\ concat r = [7;8;9]
    /\ length r = length [2;0;1]
    /\ (forall i, (i < length [2;0;1])%nat -> nth i [2;0;1] 0 = 0 -> nth i r [] = [])
    /\ split_list (@nil Z) [] = Ok [].
Proof.
  apply (split_list_concat_length [7;8;9] [2;0;1]);
    [repeat constructor; lia | reflexivity].
Defined.

(** ** [allclose_report]

    A tensor is its shape and its entries in row-major order.  [torch]'s
    elementwise [isclose] at the given tolerances is the abstract test
    [isclose], and [t1 / t2] is [div].  Exception messages are abbreviated
    to their fixed part. *)

(** [n] consecutive groups of [k] items. *)
Fixpoint groups {A} (n k : nat) (x : list A) : list (list A) :=
  match n with
  | O => []
  | S n' => firstn k x :: groups n' k (skipn k x)
  end.

Definition numel_of (s : list nat) : nat := fold_right Nat.mul 1%nat s.

(** Broadcasting of two shapes given last dimension first: equal sizes
    stay, a size 1 stretches to the other, anything else is an error. *)
Fixpoint broadcast_rev (r1 r2 : list nat) : option (list nat) :=
  match r1, r2 with
  | [], r => Some r
  | r, [] => Some r
  | a :: r1', b :: r2' =>
      match broadcast_rev r1' r2' with
      | None => None
      | Some r =>
          if Nat.eqb a b then Some (a :: r)
          else if Nat.eqb a 1%nat then Some (b :: r)
          else if Nat.eqb b 1%nat then Some (a :: r)
          else None
      end
  end.

(** [torch.broadcast_shapes(s1, s2)], aligned on the last dimension. *)
Definition broadcast_shapes (s1 s2 : list nat) : option (list nat) :=
  option_map (@rev nat) (broadcast_rev (rev s1) (rev s2)).

(** [x.expand(B)] for the row-major entries [x] of a tensor of shape [s]
    whose shape broadcasts to [B]: missing leading dimensions and
    dimensions of size 1 are repeated. *)
Fixpoint expand {A} (B s : list nat) (x : list A) : list A :=
  match B with
  | [] => x
  | b :: B' =>
      if Nat.ltb (length s) (length B) then concat (repeat (expand B' s x) b)
      else match s with
           | [] => x
           | d :: s' =>
               if Nat.eqb d b then concat (map (expand B' s') (groups d (numel_of s') x))
               else concat (repeat (expand B' s' x) b)
           end
  end.

(** The multi-indices of a shape in row-major order. *)
Fixpoint multi_indices (s : list nat) : list (list nat) :=
  match s with
  | [] => [[]]
  | d :: s' => flat_map (fun i => map (cons i) (multi_indices s')) (seq 0 d)
  end.

(** [mask.argwhere()] for a mask of shape [B]. *)
Definition argwhere (B : list nat) (m : list bool) : list (list nat) :=
  map fst (filter snd (combine (multi_indices B) m)).

Section AllcloseReport.
Variable E : Type.
Variable isclose : E -> E -> bool.
Variable div : E -> E -> E.

Record tensor := { shape : list nat; data : list E }.


(** One printed line [at index {idx}: {t1} ≠ {t2}, ratio: {t1 / t2}]. *)
Record report_line := { line_idx : list nat; line_t1 : E; line_t2 : E; line_ratio : E }.

(** [tensor1.isclose(tensor2, ...)]: the mask and its (broadcast) shape. *)
Definition isclose_t (t1 t2 : tensor) : py_result (list nat * list bool) :=
  match broadcast_shapes (shape t1) (shape t2) with
  | None => Raise (RuntimeError
      "The size of tensor a must match the size of tensor b at non-singleton dimension")
  | Some B =>
      Ok (B, map (fun p => isclose (fst p) (snd p))
                 (combine (expand B (shape t1) (data t1)) (expand B (shape t2) (data t2))))
  end.

(** [tensor1.allclose(tensor2, ...)], i.e. [isclose(...).all()]. *)
Definition allclose (t1 t2 : tensor) : py_result bool :=
  match isclose_t t1 t2 with
  | Raise e => Raise e
  | Ok (_, m) => Ok (forallb (fun b => b) m)
  end.

(** [t[mask].flatten()] for a boolean mask of shape [B].  The mask here
    has the broadcast shape, with at least as many dimensions as [t]; then
    indexing succeeds exactly when the shapes agree. *)
Definition masked (t : tensor) (B : list nat) (m : list bool) : py_result (list E) :=
  if list_eq_dec Nat.eq_dec (shape t) B then Ok (map fst (filter snd (combine (data t) m)))
  else Raise (IndexError "The shape of the mask does not match the shape of the indexed tensor").

Definition mk_line (idx : list nat) (a b : E) : report_line :=
  {| line_idx := idx; line_t1 := a; line_t2 := b; line_ratio := div a b |}.

(** [allclose_report(tensor1, tensor2, rtol, atol)]: the printed lines and
    the returned boolean.  The three arguments of [zip] are evaluated, in
    order, before the first line is printed. *)
Definition allclose_report (t1 t2 : tensor) : py_result (list report_line * bool) :=
  match allclose t1 t2 with
  | Raise e => Raise e
  | Ok close =>
      if negb close then
        match isclose_t t1 t2 with
        | Raise e => Raise e
        | Ok (B, m) =>
            let nonclose_idx := map negb m in
            match masked t1 B nonclose_idx with
            | Raise e => Raise e
            | Ok a =>
                match masked t2 B nonclose_idx with
                | Raise e => Raise e
                | Ok b =>
                    Ok (map (fun '(idx, (x, y)) => mk_line idx x y)
                            (combine (argwhere B nonclose_idx) (combine a b)), close)
                end
            end
        end
      else Ok ([], close)
  end.

(** A one-dimensional tensor. *)
Definition vec (x : list E) : tensor := {| shape := [length x]; data := x |}.


Definition pairs_close (d1 d2 : list E) : bool :=
  forallb (fun p => isclose (fst p) (snd p)) (combine d1 d2).

(** *** Lemmas *)



Lemma groups_spec {A} (n k : nat) (x : list A) :
  length x = (n * k)%nat ->
  concat (groups n k x) = x /\ Forall (fun g => length g = k) (groups n k x).
Proof.
  revert x. induction n as [|n IH]; intros x Hx.
  - destruct x; [split; constructor | discriminate].
  - cbn [groups concat]. destruct (IH (skipn k x)) as [Hc Hf].
    { rewrite length_skipn. lia. }
    split.
    + rewrite Hc. apply firstn_skipn.
    + constructor; [rewrite length_firstn; lia | exact Hf].
Qed.

Lemma expand_same {A} (s : list nat) (x : list A) :
  length x = numel_of s -> expand s s x = x.
Proof.
  revert x. induction s as [|d s IH]; intros x Hx; [reflexivity|].
  cbn [expand]. rewrite Nat.ltb_irrefl, Nat.eqb_refl.
  cbn [numel_of fold_right] in Hx. fold (numel_of s) in Hx.
  destruct (groups_spec d (numel_of s) x Hx) as [Hc Hf].
  rewrite <- Hc at 2. f_equal. rewrite <- (map_id (groups d (numel_of s) x)) at 2.
  apply map_ext_in. intros g Hg. apply IH.
  rewrite Forall_forall in Hf. apply Hf. exact Hg.
Qed.



Lemma concat_repeat_single {A} (y : A) (n : nat) : concat (repeat [y] n) = repeat y n.
Proof. induction n as [|n IH]; [reflexivity|]. simpl. rewrite IH. reflexivity. Qed.




Lemma forallb_map_pairs (d1 d2 : list E) :
  forallb (fun b => b) (map (fun p => isclose (fst p) (snd p)) (combine d1 d2))
  = pairs_close d1 d2.
Proof.
  unfold pairs_close. induction (combine d1 d2) as [|p l IH]; [reflexivity|].
  simpl. rewrite IH. reflexivity.
Qed.

Lemma pairs_close_repeat (x : list E) (y : E) :
  pairs_close x (repeat y (length x)) = forallb (fun a => isclose a y) x.
Proof.
  unfold pairs_close. induction x as [|a x IH]; [reflexivity|].
  simpl. rewrite IH. reflexivity.
Qed.

Lemma forallb_existsb_negb (f : E -> bool) (x : list E) :
  existsb (fun a => negb (f a)) x = true -> forallb f x = false.
Proof.
  induction x as [|a x IH]; [discriminate|]. simpl. intro H.
  destruct (f a); [apply IH; exact H | reflexivity].
Qed.

(** *** Claims *)

(** C8 (code bug): [allclose], and so the return value the claim promises,
    broadcasts: a one-element [tensor2] is compared with every entry of a
    longer one-dimensional [tensor1].  When some entry is not close,
    [allclose] is [False], but [allclose_report] does not report and return
    [False]: indexing [tensor2] with the broadcast mask raises [IndexError]
    before any line is printed. *)
Theorem allclose_report_broadcast_raises (x : list E) (y : E) :
  (1 < length x)%nat -> existsb (fun a => negb (isclose a y)) x = true ->
  allclose (vec x) (vec [y]) = Ok false
  /\ exists msg, allclose_report (vec x) (vec [y]) = Raise (IndexError msg).
Proof.
  intros Hn Hx.
  assert (Hb : broadcast_shapes [length x] [1%nat] = Some [length x]).
  { unfold broadcast_shapes. simpl.
    destruct (Nat.eqb (length x) 1) eqn:E1; [apply Nat.eqb_eq in E1; lia|]. reflexivity. }
  assert (He1 : expand [length x] [length x] x = x)
    by (apply expand_same; cbn; lia).
  assert (He2 : expand [length x] [1%nat] [y] = repeat y (length x)).
  { cbn [expand length]. rewrite Nat.ltb_irrefl.
    destruct (Nat.eqb 1 (length x)) eqn:E1; [apply Nat.eqb_eq in E1; lia|].
    apply concat_repeat_single. }
  assert (Hi : isclose_t (vec x) (vec [y])
               = Ok ([length x], map (fun p => isclose (fst p) (snd p))
                                     (combine x (repeat y (length x))))).
  { unfold isclose_t. cbn [vec shape data length]. rewrite Hb.
    rewrite He1, He2. reflexivity. }
  assert (Ha : allclose (vec x) (vec [y]) = Ok false).
  { unfold allclose. rewrite Hi. rewrite forallb_map_pairs, pairs_close_repeat.
    rewrite (forallb_existsb_negb _ x Hx). reflexivity. }
  split; [exact Ha|].
  unfold allclose_report. rewrite Ha, Hi. cbn [negb].
  unfold masked at 1. cbn [vec shape data].
  destruct (list_eq_dec Nat.eq_dec [length x] [length x]) as [_|C]; [|contradiction].
  unfold masked. cbn [vec shape data length].
  destruct (list_eq_dec Nat.eq_dec [1%nat] [length x]) as [C|_].
  - injection C as C. lia.
  - eexists. reflexivity.
Qed.


End AllcloseReport.

Lemma allclose_report_broadcast_raises_witness :
  (1 < length [1;2;3])%nat /\ existsb (fun a => negb (Z.eqb a 1)) [1;2;3] = true /\
  (allclose Z Z.eqb (vec Z [1;2;3]) (vec Z [1]) = Ok false
   /\ exists msg, allclose_report Z Z.eqb Z.div (vec Z [1;2;3]) (vec Z [1])
                  = Raise (IndexError msg)).
Proof.
  split; [simpl; lia|]. split; [reflexivity|].
  apply (allclose_report_broadcast_raises Z Z.eqb Z.div [1;2;3] 1); [simpl; lia | reflexivity].
Defined.

Definition ex_t1 : tensor Z := {| shape := [2;2]%nat; data := [4;6;8;1] |}.
Definition ex_t2 : tensor Z := {| shape := [2;2]%nat; data := [4;3;8;2] |}.


Example allclose_report_ex :
  allclose_report Z Z.eqb Z.div ex_t1 ex_t2
  = Ok ([mk_line Z Z.div [0;1]%nat 6 3; mk_line Z Z.div [1;1]%nat 1 2], false).
Proof. reflexivity. Qed.

(** Shapes [(2, 3)] and [(3, 2)] do not broadcast: [allclose] raises. *)
Example allclose_report_ex_runtime :
  exists msg, allclose_report Z Z.eqb Z.div {| shape := [2;3]%nat; data := [1;2;3;4;5;6] |}
                                            {| shape := [3;2]%nat; data := [1;2;3;4;5;6] |}
              = Raise (RuntimeError msg).
Proof. eexists. reflexivity. Qed.

(** Shapes [(1, 4)] and [(4, 1)] broadcast to [(4, 4)]; when not all close,
    indexing [tensor1] with the [(4, 4)] mask raises. *)
Example allclose_report_ex_index :
  exists msg, allclose_report Z Z.eqb Z.div {| shape := [1;4]%nat; data := [1;2;3;4] |}
                                            {| shape := [4;1]%nat; data := [1;2;3;4] |}
              = Raise (IndexError msg).
Proof. eexists. reflexivity. Qed.

(** Broadcast entries that are all close: [allclose_report] returns [True]. *)
Example allclose_report_ex_broadcast_close :
  allclose_report Z Z.eqb Z.div (vec Z [5;5;5]) (vec Z [5]) = Ok ([], true).
Proof. reflexivity. Qed.

(** ** The curvature operator

    The operator class ([curvlinops.HessianLinearOperator], imported by
    [test/test_hessian.py]) is not part of the source files; the definitions
    below follow the spec (sections 4.1 and 4.3) and say so in their doc
    comments.  Numbers are an abstract type [R] with its addition [radd] and
    zero [rzero]; the curvature kernel of one batch on a parameter subset is
    the external collaborator [kernel]. *)

(** The input [X] of one batch, as seen by the batch-size resolver. *)
Inductive batch_input :=
| ArrayInput (leading_dim : Z)
| MappingInput (keys : list string).

Definition is_mapping (X : batch_input) : bool :=
  match X with MappingInput _ => true | ArrayInput _ => false end.

(** Modelled from the spec: the default batch-size resolver of the operator
    (missing from the sources): the leading dimension of an array-like input,
    a [ConfigurationError] for a mapping-like one. *)
Definition default_batch_size_fn (X : batch_input) : py_result Z :=
  match X with
  | ArrayInput n => Ok n
  | MappingInput _ =>
      Raise (ConfigurationError
        "Cannot determine batch size of a mapping-like input; pass batch_size_fn.")
  end.

(** Sequencing of a list of fallible calls, stopping at the first raise. *)
Fixpoint py_mapM {A B} (f : A -> py_result B) (l : list A) : py_result (list B) :=
  match l with
  | [] => Ok []
  | a :: l' =>
      match f a with
      | Raise e => Raise e
      | Ok b => match py_mapM f l' with Raise e => Raise e | Ok bs => Ok (b :: bs) end
      end
  end.

Section Curvature.
Variable R : Type.
Variable radd : R -> R -> R.
Variable rzero : R.
Variable Param : Type.
Variable numel : Param -> nat.
Variable Batch : Type.
Variable batch_X : Batch -> batch_input.
(** [kernel ps b v]: the contribution of batch [b] to the curvature matrix
    restricted to the parameters [ps], applied to [v]. *)
Variable kernel : list Param -> Batch -> list R -> list R.

(** Flattened dimension of a parameter list, [sum(p.numel() for p in ps)]. *)
Definition dim (ps : list Param) : nat := fold_right (fun p acc => (numel p + acc)%nat) 0%nat ps.

(** Elementwise vector addition. *)
Definition vadd (x y : list R) : list R := map (fun p => radd (fst p) (snd p)) (combine x y).

Definition vzeros (n : nat) : list R := repeat rzero n.

(** Split a flat vector into consecutive pieces of the given lengths. *)
Definition split_vec (v : list R) (dims : list nat) : list (list R) :=
  chunks v (map Z.of_nat dims).

(** Modelled from the spec: the operator state kept by the constructor. *)
Record operator := {
  op_params : list Param;
  op_data : list Batch;
  op_blocks : list (list Param);
  op_N_data : Z
}.

Definition input_dim (op : operator) : nat := dim (op_params op).

(** Modelled from the spec: the total number of data points, resolving the
    size of every batch in stream order and failing at the first batch the
    resolver rejects. *)
Fixpoint total_size (bsf : batch_input -> py_result Z) (data : list Batch) : py_result Z :=
  match data with
  | [] => Ok 0
  | b :: data' =>
      match bsf (batch_X b) with
      | Raise e => Raise e
      | Ok n => match total_size bsf data' with Raise e => Raise e | Ok m => Ok (n + m) end
      end
  end.

(** Modelled from the spec: [Operator(model, loss_fn, params, data,
    batch_size_fn, in_blocks=blocks, out_blocks=blocks)]; the resolver
    defaults to [default_batch_size_fn], the blocks are checked and built with
    [split_list], no blocks meaning one block of all parameters. *)
Definition make_operator (params : list Param) (data : list Batch)
    (batch_size_fn : option (batch_input -> Z)) (blocks : option (list Z))
    : py_result operator :=
  let bsf := match batch_size_fn with
             | Some f => fun X => Ok (f X)
             | None => default_batch_size_fn
             end in
  match total_size bsf data with
  | Raise e => Raise e
  | Ok N =>
      match blocks with
      | None => Ok {| op_params := params; op_data := data; op_blocks := [params];
                      op_N_data := N |}
      | Some bs =>
          match split_list params bs with
          | Raise e => Raise e
          | Ok pbs => Ok {| op_params := params; op_data := data; op_blocks := pbs;
                            op_N_data := N |}
          end
      end
  end.

(** Modelled from the spec: the contribution of one batch, block by block:
    input block [i] only feeds output block [i]. *)
Definition batch_contribution (op : operator) (v : list R) (b : Batch) : list R :=
  let vs := split_vec v (map dim (op_blocks op)) in
  concat (map (fun p => kernel (fst p) b (snd p)) (combine (op_blocks op) vs)).

(** Modelled from the spec: [matvec(v)], summing the batch contributions over
    the data stream in stream order. *)
Definition matvec (op : operator) (v : list R) : py_result (list R) :=
  if Nat.eqb (length v) (input_dim op) then
    Ok (fold_left (fun acc b => vadd acc (batch_contribution op v b))
                  (op_data op) (vzeros (input_dim op)))
  else Raise (ShapeMismatchError "input vector does not match the operator's input dimension").

(** Modelled from the spec: [matmat(V)] for the stacked columns [V],
    column by column. *)
Definition matmat (op : operator) (V : list (list R)) : py_result (list (list R)) :=
  py_mapM (matvec op) V.

(** Blocks accepted by the constructor: none, or non-negative sizes summing
    to the number of parameters. *)
Definition valid_blocks (params : list Param) (blocks : option (list Z)) : Prop :=
  match blocks with
  | None => True
  | Some bs => Forall (fun s => 0 <= s) bs /\ py_len params = py_sum bs
  end.

Lemma total_size_default_mapping (data : list Batch) :
  (exists b, In b data /\ is_mapping (batch_X b) = true) ->
  exists msg, total_size default_batch_size_fn data = Raise (ConfigurationError msg).
Proof.
  induction data as [|b data IH]; intros [b0 [Hin Hm]]; [destruct Hin|].
  simpl. destruct Hin as [<-|Hin].
  - destruct (batch_X b); [discriminate|]. eexists; reflexivity.
  - destruct (batch_X b); simpl.
    + destruct IH as [msg ->]; [exists b0; split; assumption|]. exists msg; reflexivity.
    + eexists; reflexivity.
Qed.

Lemma total_size_resolver (f : batch_input -> Z) (data : list Batch) :
  exists N, total_size (fun X => Ok (f X)) data = Ok N.
Proof.
  induction data as [|b data [N IH]]; simpl; [eexists; reflexivity|].
  rewrite IH. eexists; reflexivity.
Qed.

Lemma make_operator_resolver (params : list Param) (data : list Batch)
    (f : batch_input -> Z) (blocks : option (list Z)) :
  valid_blocks params blocks ->
  exists op, make_operator params data (Some f) blocks = Ok op
    /\ op_params op = params /\ op_data op = data
    /\ op_blocks op = match blocks with None => [params] | Some bs => chunks params bs end.
Proof.
  intro Hv. unfold make_operator. destruct (total_size_resolver f data) as [N ->].
  destruct blocks as [bs|].
  - destruct Hv as [Hs Hn]. rewrite split_list_ok by assumption.
    eexists; repeat split.
  - eexists; repeat split.
Qed.

Lemma matvec_ok (op : operator) (v : list R) :
  length v = input_dim op -> exists w, matvec op v = Ok w.
Proof.
  intro Hl. unfold matvec. rewrite Hl, Nat.eqb_refl. eexists; reflexivity.
Qed.

Lemma matmat_ok (op : operator) (V : list (list R)) :
  Forall (fun col => length col = input_dim op) V -> exists W, matmat op V = Ok W.
Proof.
  unfold matmat. induction 1 as [|col V Hc HV [W IH]]; simpl; [eexists; reflexivity|].
  destruct (matvec_ok op col Hc) as [w ->]. rewrite IH. eexists; reflexivity.
Qed.

(** C1: if some batch of the data has a mapping-like input, constructing the
    operator without [batch_size_fn] raises a [ConfigurationError]; with a
    resolver supplied (and accepted blocks), construction succeeds and so do
    [matvec] and [matmat] on inputs of the operator's input dimension. *)
Theorem mapping_batches_need_resolver (params : list Param) (data : list Batch)
    (blocks : option (list Z)) :
  (exists b, In b data /\ is_mapping (batch_X b) = true) ->
  (exists msg, make_operator params data None blocks = Raise (ConfigurationError msg))
  /\ (forall f : batch_input -> Z, valid_blocks params blocks ->
       exists op, make_operator params data (Some f) blocks = Ok op
         /\ (forall v, length v = input_dim op -> exists w, matvec op v = Ok w)
         /\ (forall V, Forall (fun col => length col = input_dim op) V ->
               exists W, matmat op V = Ok W)).
Proof.
  intro Hm. split.
  - destruct (total_size_default_mapping data Hm) as [msg Hmsg].
    exists msg. unfold make_operator. rewrite Hmsg. reflexivity.
  - intros f Hv. destruct (make_operator_resolver params data f blocks Hv)
      as [op [Hop _]].
    exists op. split; [exact Hop|]. split; [apply matvec_ok | apply matmat_ok].
Qed.

(** *** Two-block partition *)

Hypothesis kernel_length :
  forall ps b v, length v = dim ps -> length (kernel ps b v) = dim ps.
Hypothesis kernel_zero :
  forall ps b, kernel ps b (vzeros (dim ps)) = vzeros (dim ps).
Hypothesis radd_zero : radd rzero rzero = rzero.

Lemma dim_app (l1 l2 : list Param) : dim (l1 ++ l2) = (dim l1 + dim l2)%nat.
Proof. induction l1 as [|p l1 IH]; simpl; [reflexivity|]. rewrite IH. lia. Qed.

Lemma length_vadd (x y : list R) : length (vadd x y) = Nat.min (length x) (length y).
Proof. unfold vadd. rewrite length_map, length_combine. reflexivity. Qed.

Lemma vadd_app (x1 x2 y1 y2 : list R) :
  length x1 = length y1 -> vadd (x1 ++ x2) (y1 ++ y2) = vadd x1 y1 ++ vadd x2 y2.
Proof.
  revert y1. induction x1 as [|a x1 IH]; intros [|c y1] Hl; simpl in Hl;
    try discriminate; [reflexivity|].
  injection Hl as Hl. unfold vadd in *. simpl. f_equal. apply IH; assumption.
Qed.

Lemma vadd_zeros (n : nat) : vadd (vzeros n) (vzeros n) = vzeros n.
Proof.
  induction n as [|n IH]; [reflexivity|]. unfold vadd, vzeros in *. simpl.
  rewrite IH, radd_zero. reflexivity.
Qed.

Lemma fold_left_ext_pt {A B} (f g : A -> B -> A) (l : list B) (a : A) :
  (forall x y, f x y = g x y) -> fold_left f l a = fold_left g l a.
Proof.
  intro H. revert a. induction l as [|y l IH]; intro a; simpl; [reflexivity|].
  rewrite H. apply IH.
Qed.

(** Accumulating concatenated per-block contributions is concatenating the
    per-block accumulations, when the first block keeps its length. *)
Lemma fold_vadd_app (data : list Batch) (g1 g2 : Batch -> list R) (n1 : nat)
    (acc1 acc2 : list R) :
  length acc1 = n1 -> (forall b, length (g1 b) = n1) ->
  fold_left (fun acc b => vadd acc (g1 b ++ g2 b)) data (acc1 ++ acc2)
  = fold_left (fun acc b => vadd acc (g1 b)) data acc1
    ++ fold_left (fun acc b => vadd acc (g2 b)) data acc2.
Proof.
  intros H1 Hg. revert acc1 acc2 H1. induction data as [|b data IH];
    intros acc1 acc2 H1; simpl; [reflexivity|].
  rewrite vadd_app by (rewrite Hg; assumption). apply IH.
  rewrite length_vadd, Hg, H1. lia.
Qed.

Lemma fold_vadd_zeros (data : list Batch) (g : Batch -> list R) (n : nat) :
  (forall b, g b = vzeros n) ->
  fold_left (fun acc b => vadd acc (g b)) data (vzeros n) = vzeros n.
Proof.
  intro Hg. induction data as [|b data IH]; simpl; [reflexivity|].
  rewrite Hg, vadd_zeros. exact IH.
Qed.

Lemma matvec_eq (op : operator) (v : list R) :
  length v = input_dim op ->
  matvec op v = Ok (fold_left (fun acc b => vadd acc (batch_contribution op v b))
                              (op_data op) (vzeros (input_dim op))).
Proof. intro Hl. unfold matvec. rewrite Hl, Nat.eqb_refl. reflexivity. Qed.

(** The per-block sum over the data stream of [kernel P], applied to [u]. *)
Definition block_sum (data : list Batch) (P : list Param) (u : list R) : list R :=
  fold_left (fun acc b => vadd acc (kernel P b u)) data (vzeros (dim P)).

Lemma matvec_single_block (op : operator) (P : list Param) (u : list R) :
  op_params op = P -> op_blocks op = [P] -> length u = dim P ->
  matvec op u = Ok (block_sum (op_data op) P u).
Proof.
  intros Hp Hb Hl. rewrite matvec_eq by (unfold input_dim; rewrite Hp; exact Hl).
  unfold input_dim, block_sum. rewrite Hp. f_equal. apply fold_left_ext_pt.
  intros acc b. unfold batch_contribution, split_vec. rewrite Hb.
  cbn [map combine concat chunks fst snd]. rewrite Nat2Z.id, app_nil_r.
  rewrite firstn_all2 by lia. reflexivity.
Qed.

Lemma matvec_two_blocks (op : operator) (P1 P2 : list Param) (v : list R) :
  op_params op = P1 ++ P2 -> op_blocks op = [P1; P2] ->
  length v = (dim P1 + dim P2)%nat ->
  matvec op v = Ok (block_sum (op_data op) P1 (firstn (dim P1) v)
                    ++ block_sum (op_data op) P2 (skipn (dim P1) v)).
Proof.
  intros Hp Hb Hl.
  rewrite matvec_eq by (unfold input_dim; rewrite Hp, dim_app; exact Hl).
  unfold input_dim, block_sum. rewrite Hp, dim_app. f_equal.
  unfold vzeros. rewrite repeat_app.
  rewrite (fold_left_ext_pt _
    (fun acc b => vadd acc (kernel P1 b (firstn (dim P1) v)
                            ++ kernel P2 b (skipn (dim P1) v)))).
  - apply (fold_vadd_app _ _ _ (dim P1)); [apply repeat_length|].
    intro b. apply kernel_length. rewrite length_firstn. lia.
  - intros acc b. unfold batch_contribution, split_vec. rewrite Hb.
    cbn [map combine concat chunks fst snd]. rewrite !Nat2Z.id, app_nil_r.
    rewrite (firstn_all2 (n := dim P2)) by (rewrite length_skipn; lia).
    reflexivity.
Qed.

Lemma block_sum_zeros (data : list Batch) (P : list Param) :
  block_sum data P (vzeros (dim P)) = vzeros (dim P).
Proof. unfold block_sum. apply fold_vadd_zeros. intro b. apply kernel_zero. Qed.

Lemma length_block_sum (data : list Batch) (P : list Param) (u : list R) :
  length u = dim P -> length (block_sum data P u) = dim P.
Proof.
  intro Hu. unfold block_sum.
  assert (Hacc : length (vzeros (dim P)) = dim P) by apply repeat_length.
  revert Hacc. generalize (vzeros (dim P)) as acc.
  induction data as [|b data IH]; intros acc Hacc; simpl; [exact Hacc|].
  apply IH. rewrite length_vadd, kernel_length by exact Hu. lia.
Qed.

Lemma firstn_app_exact {A} (n : nat) (l1 l2 : list A) :
  length l1 = n -> firstn n (l1 ++ l2) = l1.
Proof.
  intro H. rewrite firstn_app, firstn_all2 by lia. subst n.
  rewrite Nat.sub_diag. apply app_nil_r.
Qed.

Lemma skipn_app_exact {A} (n : nat) (l1 l2 : list A) :
  length l1 = n -> skipn n (l1 ++ l2) = l2.
Proof. intro H. rewrite skipn_app, skipn_all2 by lia. subst n. rewrite Nat.sub_diag. reflexivity. Qed.

(** C5: for the two-block partition [[k; n-k]] of the [n] parameters, the
    blocked operator's [matmat] is the direct sum of the two operators built
    on each parameter block alone, applied to the matching halves of every
    column; and its off-diagonal blocks are zero: an input supported on one
    block yields zeros on the other block's output. *)
Theorem blocked_matmat_direct_sum (params : list Param) (data : list Batch)
    (f : batch_input -> Z) (k : nat) :
  (k <= length params)%nat ->
  exists op op1 op2,
    make_operator params data (Some f)
      (Some [Z.of_nat k; Z.of_nat (length params - k)]) = Ok op
    /\ make_operator (firstn k params) data (Some f) None = Ok op1
    /\ make_operator (skipn k params) data (Some f) None = Ok op2
    /\ (forall V, Forall (fun col => length col = input_dim op) V ->
         exists W1 W2,
           matmat op1 (map (firstn (dim (firstn k params))) V) = Ok W1
           /\ matmat op2 (map (skipn (dim (firstn k params))) V) = Ok W2
           /\ matmat op V = Ok (map (fun p => fst p ++ snd p) (combine W1 W2)))
    /\ (forall v2, length v2 = dim (skipn k params) ->
         exists w, matvec op (vzeros (dim (firstn k params)) ++ v2) = Ok w
           /\ firstn (dim (firstn k params)) w = vzeros (dim (firstn k params)))
    /\ (forall v1, length v1 = dim (firstn k params) ->
         exists w, matvec op (v1 ++ vzeros (dim (skipn k params))) = Ok w
           /\ skipn (dim (firstn k params)) w = vzeros (dim (skipn k params))).
Proof.
  intro Hk.
  set (P1 := firstn k params). set (P2 := skipn k params).
  assert (Hv : valid_blocks params (Some [Z.of_nat k; Z.of_nat (length params - k)])).
  { split; [repeat constructor; lia|]. unfold py_len, py_sum; simpl; lia. }
  destruct (make_operator_resolver params data f _ Hv) as [op [Hop [Hp [Hd Hb]]]].
  destruct (make_operator_resolver P1 data f None I) as [op1 [Hop1 [Hp1 [Hd1 Hb1]]]].
  destruct (make_operator_resolver P2 data f None I) as [op2 [Hop2 [Hp2 [Hd2 Hb2]]]].
  cbn [chunks] in Hb. rewrite !Nat2Z.id in Hb.
  rewrite (firstn_all2 (n := (length params - k)%nat)) in Hb
    by (rewrite length_skipn; lia).
  fold P1 P2 in Hb.
  assert (Hp' : op_params op = P1 ++ P2) by (rewrite Hp; apply eq_sym, firstn_skipn).
  assert (Hdim : input_dim op = (dim P1 + dim P2)%nat)
    by (unfold input_dim; rewrite Hp', dim_app; reflexivity).
  exists op, op1, op2. split; [exact Hop|]. split; [exact Hop1|]. split; [exact Hop2|].
  split; [|split].
  - intro V. unfold matmat. induction 1 as [|col V Hc HV IH].
    + exists [], []. repeat split.
    + destruct IH as [W1 [W2 [E1 [E2 E]]]].
      rewrite Hdim in Hc.
      exists (block_sum data P1 (firstn (dim P1) col) :: W1),
             (block_sum data P2 (skipn (dim P1) col) :: W2).
      cbn [map py_mapM]. rewrite E1, E2, E.
      rewrite (matvec_single_block op1 P1), (matvec_single_block op2 P2),
              (matvec_two_blocks op P1 P2) by
        (try assumption; try rewrite length_firstn; try rewrite length_skipn; lia).
      rewrite Hd, Hd1, Hd2. repeat split.
  - intros v2 Hv2. rewrite (matvec_two_blocks op P1 P2) by
      (try assumption; rewrite length_app; unfold vzeros; rewrite repeat_length; lia).
    eexists; split; [reflexivity|].
    rewrite (firstn_app_exact (dim P1) (vzeros (dim P1)) v2)
      by (unfold vzeros; apply repeat_length).
    rewrite block_sum_zeros.
    apply firstn_app_exact. unfold vzeros; apply repeat_length.
  - intros v1 Hv1. rewrite (matvec_two_blocks op P1 P2) by
      (try assumption; rewrite length_app; unfold vzeros; rewrite repeat_length; lia).
    eexists; split; [reflexivity|].
    rewrite skipn_app_exact by (apply length_block_sum; rewrite length_firstn;
                                 rewrite length_app; unfold vzeros; rewrite repeat_length; lia).
    rewrite skipn_app_exact by exact Hv1.
    apply block_sum_zeros.
Qed.

(** *** Batched [matmat] *)

(** [kernel_mat ps b M]: the kernel of batch [b] on the parameters [ps]
    applied at once to the stack [M] of (block pieces of) columns. *)
Variable kernel_mat : list Param -> Batch -> list (list R) -> list (list R).

(** Columnwise addition of two stacks of columns. *)
Definition mat_add (A B : list (list R)) : list (list R) :=
  map (fun p => vadd (fst p) (snd p)) (combine A B).

Definition mzeros (n k : nat) : list (list R) := repeat (vzeros n) k.

(** Modelled from the spec: the contribution of one batch to [matmat(V)]:
    every column is split into blocks, block [i] of all columns is stacked
    and fed to the batched kernel of block [i], and the outputs are
    reassembled column by column. *)
Definition batch_contribution_mat (op : operator) (V : list (list R)) (b : Batch)
    : list (list R) :=
  let dims := map dim (op_blocks op) in
  let pieces := map (fun col => split_vec col dims) V in
  let stacks := map (fun i => map (fun ps => nth i ps []) pieces)
                    (seq 0 (length (op_blocks op))) in
  let outs := map (fun p => kernel_mat (fst p) b (snd p)) (combine (op_blocks op) stacks) in
  map (fun j => concat (map (fun o => nth j o []) outs)) (seq 0 (length V)).

(** Modelled from the spec: [matmat(V)] computed in one pass over the data
    stream, each batch's kernel applied to all columns at once; every
    column must have the operator's input dimension. *)
Definition matmat_batched (op : operator) (V : list (list R)) : py_result (list (list R)) :=
  if forallb (fun col => Nat.eqb (length col) (input_dim op)) V then
    Ok (fold_left (fun acc b => mat_add acc (batch_contribution_mat op V b))
                  (op_data op) (mzeros (input_dim op) (length V)))
  else Raise (ShapeMismatchError "input vector does not match the operator's input dimension").

Lemma map_nth_seq_id {A} (L : list A) (d : A) :
  map (fun i => nth i L d) (seq 0 (length L)) = L.
Proof.
  induction L as [|a L IH]; [reflexivity|].
  cbn [length seq map nth]. rewrite <- seq_shift, map_map. cbn [nth]. rewrite IH.
  reflexivity.
Qed.

Lemma nth_map_lt {A B} (f : A -> B) (l : list A) (j : nat) (d : A) (d' : B) :
  (j < length l)%nat -> nth j (map f l) d' = f (nth j l d).
Proof.
  intro Hj. rewrite (nth_indep (map f l) d' (f d)) by (rewrite length_map; exact Hj).
  apply map_nth.
Qed.

Lemma combine_map_r {A B C} (f : B -> C) (l : list A) (l' : list B) :
  combine l (map f l') = map (fun p => (fst p, f (snd p))) (combine l l').
Proof.
  revert l'. induction l as [|a l IH]; intros [|b l']; try reflexivity.
  simpl. rewrite IH. reflexivity.
Qed.

Lemma length_chunks {A} (x : list A) (sizes : list Z) :
  length (chunks x sizes) = length sizes.
Proof. revert x. induction sizes as [|s ss IH]; intro x; simpl; auto. Qed.

Lemma batch_contribution_mat_columns (op : operator) (V : list (list R)) (b : Batch) :
  (forall P b' M, kernel_mat P b' M = map (kernel P b') M) ->
  batch_contribution_mat op V b = map (fun v => batch_contribution op v b) V.
Proof.
  intro Hk. unfold batch_contribution_mat.
  transitivity (map (fun j => batch_contribution op (nth j V []) b) (seq 0 (length V))).
  2:{ rewrite <- (map_map (fun j => nth j V []) (fun v => batch_contribution op v b)).
      rewrite map_nth_seq_id. reflexivity. }
  apply map_ext_in. intros j Hj. apply in_seq in Hj.
  assert (Hjl : (j < length V)%nat) by lia.
  unfold batch_contribution. f_equal. rewrite map_map.
  erewrite map_ext_in.
  2:{ intros p Hp. rewrite Hk. reflexivity. }
  rewrite combine_map_r, map_map. cbn [fst snd].
  erewrite map_ext_in.
  2:{ intros p Hp. rewrite (nth_map_lt _ _ j [] []) by (rewrite ?length_map; exact Hjl).
      rewrite (nth_map_lt _ _ j [] []) by (rewrite ?length_map; exact Hjl). reflexivity. }
  set (L := split_vec (nth j V []) (map dim (op_blocks op))).
  assert (HL : length L = length (op_blocks op)).
  { unfold L, split_vec. rewrite length_chunks, !length_map. reflexivity. }
  rewrite <- (map_nth_seq_id L []) at 1. rewrite HL, combine_map_r, map_map.
  apply map_ext. intros [P i]. cbn [fst snd]. unfold L.
  rewrite (nth_map_lt _ _ j [] []) by exact Hjl. reflexivity.
Qed.

Lemma fold_mat_add_cons (data : list Batch) (m : Batch -> list R)
    (Ms : Batch -> list (list R)) (a : list R) (As : list (list R)) :
  fold_left (fun A b => mat_add A (m b :: Ms b)) data (a :: As)
  = fold_left (fun x b => vadd x (m b)) data a
    :: fold_left (fun A b => mat_add A (Ms b)) data As.
Proof.
  revert a As. induction data as [|b data IH]; intros a As; [reflexivity|].
  cbn [fold_left]. rewrite <- IH. reflexivity.
Qed.

Lemma fold_mat_add_nil (data : list Batch) :
  fold_left (fun A b => mat_add A (@nil (list R))) data [] = [].
Proof. induction data as [|b data IH]; [reflexivity|]. exact IH. Qed.

Lemma fold_mat_add_columns (data : list Batch) (g : list R -> Batch -> list R)
    (n : nat) (V : list (list R)) :
  fold_left (fun A b => mat_add A (map (fun v => g v b) V)) data (mzeros n (length V))
  = map (fun v => fold_left (fun x b => vadd x (g v b)) data (vzeros n)) V.
Proof.
  induction V as [|v V IH]; [apply fold_mat_add_nil|].
  cbn [map length mzeros repeat]. unfold mzeros in IH.
  rewrite fold_mat_add_cons, IH. reflexivity.
Qed.

Lemma matmat_columns (op : operator) (V : list (list R)) :
  matmat op V =
  if forallb (fun col => Nat.eqb (length col) (input_dim op)) V then
    Ok (map (fun v => fold_left (fun acc b => vadd acc (batch_contribution op v b))
                                (op_data op) (vzeros (input_dim op))) V)
  else Raise (ShapeMismatchError "input vector does not match the operator's input dimension").
Proof.
  unfold matmat. induction V as [|v V IH]; [reflexivity|].
  cbn [py_mapM forallb map]. unfold matvec at 1.
  destruct (Nat.eqb (length v) (input_dim op)); [|reflexivity].
  rewrite IH. destruct (forallb _ V); reflexivity.
Qed.

Lemma py_mapM_Forall2 {A B} (f : A -> py_result B) (l : list A) (W : list B) :
  py_mapM f l = Ok W -> Forall2 (fun a b => f a = Ok b) l W.
Proof.
  revert W. induction l as [|a l IH]; intros W H; simpl in H.
  - injection H as <-. constructor.
  - destruct (f a) eqn:Ha; [|discriminate].
    destruct (py_mapM f l) eqn:Hl; [|discriminate].
    injection H as <-. constructor; [exact Ha | apply IH; reflexivity].
Qed.

(** C4: when the batched kernel acts on a stack of columns column by
    column, the batched [matmat(V)] equals looping [matvec] over the
    columns, exactly (same additions in the same order, for any number
    type): it returns the same result, or raises the same error, as
    [matmat], and its [i]-th output column is [matvec] of the [i]-th
    input column. *)
Theorem matmat_batched_columns
    (kernel_mat_columns : forall P b M, kernel_mat P b M = map (kernel P b) M)
    (op : operator) (V : list (list R)) :
  matmat_batched op V = matmat op V
  /\ (forall W, matmat_batched op V = Ok W -> Forall2 (fun v w => matvec op v = Ok w) V W).
Proof.
  assert (Heq : matmat_batched op V = matmat op V).
  { rewrite matmat_columns. unfold matmat_batched.
    destruct (forallb _ V); [|reflexivity]. f_equal.
    erewrite fold_left_ext_pt.
    - apply fold_mat_add_columns.
    - intros acc b. rewrite batch_contribution_mat_columns by exact kernel_mat_columns.
      reflexivity. }
  split; [exact Heq|]. intros W H. rewrite Heq in H. apply py_mapM_Forall2. exact H.
Qed.

(** *** The array-frontend bridge *)

(** Scalars of the generic array library, the conversions to and from the
    operator's native scalars, and the dtype of a parameter list. *)
Variable G : Type.
Variable native : G -> R.
Variable back : R -> G.
Variable Dtype : Type.
Variable params_dtype : list Param -> Dtype.

(** Modelled from the spec: the read-only metadata of the operator. *)
Definition op_shape (op : operator) : nat * nat := (input_dim op, input_dim op).
Definition op_dtype (op : operator) : Dtype := params_dtype (op_params op).

(** Modelled from the spec: a linear operator of the generic array library. *)
Record generic_operator := {
  g_shape : nat * nat;
  g_dtype : Dtype;
  g_matvec : list G -> py_result (list G);
  g_matmat : list (list G) -> py_result (list (list G))
}.

Definition map_result {A B} (f : A -> B) (r : py_result A) : py_result B :=
  match r with Ok a => Ok (f a) | Raise e => Raise e end.

(** Modelled from the spec: [to_generic_operator(op)] exposes the shape and
    dtype of [op] and delegates [matvec]/[matmat] after converting the input
    to native scalars, converting the result back. *)
Definition to_generic_operator (op : operator) : generic_operator :=
  {| g_shape := op_shape op;
     g_dtype := op_dtype op;
     g_matvec := fun x => map_result (map back) (matvec op (map native x));
     g_matmat := fun X => map_result (map (map back)) (matmat op (map (map native) X)) |}.

Lemma map_native_back (native_back : forall r, native (back r) = r) (v : list R) :
  map native (map back v) = v.
Proof.
  rewrite map_map. rewrite <- (map_id v) at 2. apply map_ext. exact native_back.
Qed.

(** C9: the bridged operator's [matvec(x)] is [op.matvec(native(x))]
    converted back, exactly, and it has the shape and dtype of [op]; when
    converting back and forth is the identity on native scalars, the round
    trip of a native vector through the bridge gives [op.matvec] converted
    back. *)
Theorem to_generic_operator_matvec (op : operator) :
  (forall x, g_matvec (to_generic_operator op) x
             = map_result (map back) (matvec op (map native x)))
  /\ g_shape (to_generic_operator op) = op_shape op
  /\ g_dtype (to_generic_operator op) = op_dtype op
  /\ ((forall r, native (back r) = r) ->
      forall v, g_matvec (to_generic_operator op) (map back v)
                = map_result (map back) (matvec op v)).
Proof.
  split; [reflexivity|]. split; [reflexivity|]. split; [reflexivity|].
  intros Hnb v. cbn [to_generic_operator g_matvec]. rewrite map_native_back by exact Hnb.
  reflexivity.
Qed.

End Curvature.

(** ** A concrete instance of the operator

    Integer entries, parameters given by their number of elements, batches
    carrying their input and a weight, and a kernel that scales the vector by
    the batch weight. *)
Definition ex_batch : Type := (batch_input * Z)%type.
Definition ex_kernel (ps : list nat) (b : ex_batch) (v : list Z) : list Z :=
  map (Z.mul (snd b)) v.
Definition ex_make := make_operator nat ex_batch fst.
Definition ex_matvec := matvec Z Z.add 0 nat (fun p => p) ex_batch ex_kernel.
Definition ex_matmat := matmat Z Z.add 0 nat (fun p => p) ex_batch ex_kernel.
Definition ex_input_dim := input_dim nat (fun p => p) ex_batch.
Definition ex_dim := dim nat (fun p => p).
Definition ex_zeros := vzeros Z 0.

Example ex_matvec_run :
  match ex_make [2;1]%nat [(ArrayInput 4, 1); (ArrayInput 4, 2)] None (Some [1;1]) with
  | Ok op => ex_matvec op [1;2;3]
  | Raise e => Raise e
  end = Ok [3;6;9].
Proof. reflexivity. Qed.

Example ex_mapping_raises :
  exists msg, ex_make [2;1]%nat [(ArrayInput 4, 1); (MappingInput ["x"%string], 2)] None None
              = Raise (ConfigurationError msg).
Proof. eexists; reflexivity. Qed.

Lemma mapping_batches_need_resolver_witness :
  (exists b, In b [(ArrayInput 4, 1); (MappingInput ["x"%string], 2)]
             /\ is_mapping (fst b) = true)
  /\ (exists msg, ex_make [2;1]%nat [(ArrayInput 4, 1); (MappingInput ["x"%string], 2)]
                    None None = Raise (ConfigurationError msg))
  /\ (forall f : batch_input -> Z, valid_blocks nat [2;1]%nat None ->
       exists op, ex_make [2;1]%nat [(ArrayInput 4, 1); (MappingInput ["x"%string], 2)]
                    (Some f) None = Ok op
         /\ (forall v, length v = ex_input_dim op -> exists w, ex_matvec op v = Ok w)
         /\ (forall V, Forall (fun col => length col = ex_input_dim op) V ->
               exists W, ex_matmat op V = Ok W)).
Proof.
  assert (Hm : exists b, In b [(ArrayInput 4, 1); (MappingInput ["x"%string], 2)]
                         /\ is_mapping (fst b) = true)
    by (exists (MappingInput ["x"%string], 2); split; [right; left; reflexivity | reflexivity]).
  split; [exact Hm|].
  exact (mapping_batches_need_resolver Z Z.add 0 nat (fun p => p) ex_batch fst ex_kernel
           [2;1]%nat _ None Hm).
Defined.

Lemma ex_kernel_length :
  forall ps b v, length v = ex_dim ps -> length (ex_kernel ps b v) = ex_dim ps.
Proof. intros ps b v H. unfold ex_kernel. rewrite length_map. exact H. Qed.

Lemma ex_kernel_zero :
  forall ps b, ex_kernel ps b (ex_zeros (ex_dim ps)) = ex_zeros (ex_dim ps).
Proof.
  intros ps b. unfold ex_kernel, ex_zeros, vzeros. rewrite map_repeat, Z.mul_0_r.
  reflexivity.
Qed.

Lemma blocked_matmat_direct_sum_witness :
  (1 <= length [2;1;3]%nat)%nat /\
  exists op op1 op2,
    ex_make [2;1;3]%nat [(ArrayInput 4, 1); (ArrayInput 4, 2)] (Some (fun _ => 4))
      (Some [Z.of_nat 1; Z.of_nat (length [2;1;3]%nat - 1)]) = Ok op
    /\ ex_make (firstn 1 [2;1;3]%nat) [(ArrayInput 4, 1); (ArrayInput 4, 2)]
         (Some (fun _ => 4)) None = Ok op1
    /\ ex_make (skipn 1 [2;1;3]%nat) [(ArrayInput 4, 1); (ArrayInput 4, 2)]
         (Some (fun _ => 4)) None = Ok op2
    /\ (forall V, Forall (fun col => length col = ex_input_dim op) V ->
         exists W1 W2,
           ex_matmat op1 (map (firstn (ex_dim (firstn 1 [2;1;3]%nat))) V) = Ok W1
           /\ ex_matmat op2 (map (skipn (ex_dim (firstn 1 [2;1;3]%nat))) V) = Ok W2
           /\ ex_matmat op V = Ok (map (fun p => fst p ++ snd p) (combine W1 W2)))
    /\ (forall v2, length v2 = ex_dim (skipn 1 [2;1;3]%nat) ->
         exists w, ex_matvec op (ex_zeros (ex_dim (firstn 1 [2;1;3]%nat)) ++ v2) = Ok w
           /\ firstn (ex_dim (firstn 1 [2;1;3]%nat)) w = ex_zeros (ex_dim (firstn 1 [2;1;3]%nat)))
    /\ (forall v1, length v1 = ex_dim (firstn 1 [2;1;3]%nat) ->
         exists w, ex_matvec op (v1 ++ ex_zeros (ex_dim (skipn 1 [2;1;3]%nat))) = Ok w
           /\ skipn (ex_dim (firstn 1 [2;1;3]%nat)) w = ex_zeros (ex_dim (skipn 1 [2;1;3]%nat))).
Proof.
  split; [simpl; lia|].
  exact (blocked_matmat_direct_sum Z Z.add 0 nat (fun p => p) ex_batch fst ex_kernel
           ex_kernel_length ex_kernel_zero eq_refl [2;1;3]%nat _ (fun _ => 4) 1
           ltac:(simpl; lia)).
Defined.

(** The batched kernel of the instance: the kernel on every column of the
    stack. *)
Definition ex_kernel_mat (ps : list nat) (b : ex_batch) (M : list (list Z)) : list (list Z) :=
  map (ex_kernel ps b) M.
Definition ex_matmat_batched := matmat_batched Z Z.add 0 nat (fun p => p) ex_batch ex_kernel_mat.

Definition ex_op : operator nat ex_batch :=
  {| op_params := [1;2]%nat; op_data := [(ArrayInput 1, 2); (ArrayInput 1, 3)];
     op_blocks := [[1]%nat; [2]%nat]; op_N_data := 2 |}.

Example ex_matmat_batched_run :
  ex_matmat_batched ex_op [[1;0;0]; [0;1;2]] = Ok [[5;0;0]; [0;5;10]].
Proof. reflexivity. Qed.

Lemma matmat_batched_columns_witness :
  (forall P b M, ex_kernel_mat P b M = map (ex_kernel P b) M) /\
  (ex_matmat_batched ex_op [[1;0;0]; [0;1;2]] = ex_matmat ex_op [[1;0;0]; [0;1;2]]
   /\ (forall W, ex_matmat_batched ex_op [[1;0;0]; [0;1;2]] = Ok W ->
        Forall2 (fun v w => ex_matvec ex_op v = Ok w) [[1;0;0]; [0;1;2]] W)).
Proof.
  assert (Hk : forall P b M, ex_kernel_mat P b M = map (ex_kernel P b) M)
    by (intros; reflexivity).
  split; [exact Hk|].
  exact (matmat_batched_columns Z Z.add 0 nat (fun p => p) ex_batch ex_kernel ex_kernel_mat
           Hk ex_op [[1;0;0]; [0;1;2]]).
Defined.

(** Generic scalars of the instance: a value with an extra tag, converted
    to native by dropping the tag. *)
Definition ex_generic := to_generic_operator Z Z.add 0 nat (fun p => p) ex_batch ex_kernel
                           (Z * Z) fst (fun r => (r, 0)) string (fun _ => "float64"%string).

Lemma to_generic_operator_matvec_witness :
  (forall r : Z, fst (r, 0) = r) /\
  g_matvec (Z * Z) string (ex_generic ex_op) (map (fun r => (r, 0)) [1;2;3])
  = map_result (map (fun r => (r, 0))) (ex_matvec ex_op [1;2;3]).
Proof.
  assert (Hnb : forall r : Z, fst (r, 0) = r) by reflexivity.
  split; [exact Hnb|].
  exact (proj2 (proj2 (proj2 (to_generic_operator_matvec Z Z.add 0 nat (fun p => p) ex_batch
           ex_kernel (Z * Z) fst (fun r => (r, 0)) string (fun _ => "float64"%string) ex_op)))
           Hnb [1;2;3]).
Defined.


(** ** Further properties of [split_list] *)

Lemma py_sum_app (s1 s2 : list Z) : py_sum (s1 ++ s2) = py_sum s1 + py_sum s2.
Proof.
  unfold py_sum. rewrite fold_left_app, fold_left_add_acc. fold (py_sum s1). reflexivity.
Qed.

Lemma chunks_of_concat {A} (ls : list (list A)) :
  chunks (concat ls) (map py_len ls) = ls.
Proof.
  induction ls as [|l ls IH]; [reflexivity|]. cbn [concat map chunks].
  unfold py_len at 1 2. rewrite Nat2Z.id.
  rewrite firstn_app_exact, skipn_app_exact by reflexivity. rewrite IH. reflexivity.
Qed.

Lemma py_len_concat {A} (ls : list (list A)) :
  py_len (concat ls) = py_sum (map py_len ls).
Proof.
  induction ls as [|l ls IH]; [reflexivity|]. cbn [concat map].
  rewrite py_sum_cons, <- IH. unfold py_len. rewrite length_app. lia.
Qed.

(** [split_list] inverts concatenation: splitting the concatenation of any
    lists by their lengths gives those lists back. *)
Theorem split_list_concat_roundtrip {A} (ls : list (list A)) :
  split_list (concat ls) (map py_len ls) = Ok ls.
Proof.
  rewrite split_list_ok.
  - rewrite chunks_of_concat. reflexivity.
  - apply Forall_map, Forall_forall. intros l _. unfold py_len. lia.
  - apply py_len_concat.
Qed.

Lemma chunks_app {A} (x : list A) (s1 s2 : list Z) :
  Forall (fun s => 0 <= s) s1 ->
  chunks x (s1 ++ s2) = chunks x s1 ++ chunks (skipn (Z.to_nat (py_sum s1)) x) s2.
Proof.
  intro Hs. revert x. induction Hs as [|s ss Hs0 Hss IH]; intro x; [reflexivity|].
  pose proof (py_sum_nonneg ss Hss).
  cbn [app chunks]. rewrite IH, skipn_skipn, py_sum_cons.
  replace (Z.to_nat (py_sum ss) + Z.to_nat s)%nat with (Z.to_nat (s + py_sum ss)) by lia.
  reflexivity.
Qed.

Lemma chunks_firstn {A} (x : list A) (sizes : list Z) :
  Forall (fun s => 0 <= s) sizes ->
  chunks (firstn (Z.to_nat (py_sum sizes)) x) sizes = chunks x sizes.
Proof.
  intro Hs. revert x. induction Hs as [|s ss Hs0 Hss IH]; intro x; [reflexivity|].
  pose proof (py_sum_nonneg ss Hss). rewrite py_sum_cons. cbn [chunks].
  rewrite firstn_firstn, skipn_firstn_comm.
  replace (Nat.min (Z.to_nat s) (Z.to_nat (s + py_sum ss))) with (Z.to_nat s) by lia.
  replace (Z.to_nat (s + py_sum ss) - Z.to_nat s)%nat with (Z.to_nat (py_sum ss)) by lia.
  rewrite IH. reflexivity.
Qed.

(** Splitting by [sizes1 ++ sizes2] is splitting the first [sum(sizes1)]
    items by [sizes1] and the rest by [sizes2], side by side. *)
Theorem split_list_app_sizes {A} (x : list A) (s1 s2 : list Z) :
  Forall (fun s => 0 <= s) s1 -> Forall (fun s => 0 <= s) s2 ->
  py_len x = py_sum (s1 ++ s2) ->
  exists r1 r2,
    split_list (firstn (Z.to_nat (py_sum s1)) x) s1 = Ok r1
    /\ split_list (skipn (Z.to_nat (py_sum s1)) x) s2 = Ok r2
    /\ split_list x (s1 ++ s2) = Ok (r1 ++ r2).
Proof.
  intros H1 H2 Hn. rewrite py_sum_app in Hn.
  pose proof (py_sum_nonneg s1 H1). pose proof (py_sum_nonneg s2 H2).
  exists (chunks x s1), (chunks (skipn (Z.to_nat (py_sum s1)) x) s2).
  split; [|split].
  - rewrite split_list_ok, chunks_firstn by
      (try assumption; unfold py_len in *; rewrite length_firstn; lia).
    reflexivity.
  - rewrite split_list_ok by (try assumption; unfold py_len in *; rewrite length_skipn; lia).
    reflexivity.
  - rewrite split_list_ok, chunks_app by
      (try apply Forall_app; try split; try assumption; rewrite py_sum_app; lia).
    reflexivity.
Qed.

Lemma split_list_app_sizes_witness :
  Forall (fun s => 0 <= s) [1;2] /\ Forall (fun s => 0 <= s) [0;3]
  /\ py_len [1;2;3;4;5;6] = py_sum ([1;2] ++ [0;3]) /\
  exists r1 r2,
    split_list (firstn (Z.to_nat (py_sum [1;2])) [1;2;3;4;5;6]) [1;2] = Ok r1
    /\ split_list (skipn (Z.to_nat (py_sum [1;2])) [1;2;3;4;5;6]) [0;3] = Ok r2
    /\ split_list [1;2;3;4;5;6] ([1;2] ++ [0;3]) = Ok (r1 ++ r2).
Proof.
  assert (H1 : Forall (fun s => 0 <= s) [1;2]) by (repeat constructor; lia).
  assert (H2 : Forall (fun s => 0 <= s) [0;3]) by (repeat constructor; lia).
  split; [exact H1|]. split; [exact H2|]. split; [reflexivity|].
  exact (split_list_app_sizes [1;2;3;4;5;6] [1;2] [0;3] H1 H2 eq_refl).
Defined.

(** *** The [ValueError] message determines the two totals *)

Fixpoint str_forallb (f : Ascii.ascii -> bool) (s : string) : bool :=
  match s with
  | EmptyString => true
  | String c s' => f c && str_forallb f s'
  end.

Definition avoids (c : Ascii.ascii) (s : string) : bool :=
  str_forallb (fun ch => negb (Ascii.eqb ch c)) s.

Lemma string_of_uint_avoids (c : Ascii.ascii) (d : Decimal.uint) :
  Ascii.eqb c ","%char = true \/ Ascii.eqb c " "%char = true ->
  avoids c (NilEmpty.string_of_uint d) = true.
Proof.
  intro Hc. apply Bool.orb_true_iff in Hc. unfold avoids.
  induction d; cbn [NilEmpty.string_of_uint str_forallb]; try reflexivity;
    rewrite IHd, andb_true_r; destruct c as [[] [] [] [] [] [] [] []];
    try discriminate Hc; reflexivity.
Qed.

Lemma dec_str_avoids (c : Ascii.ascii) (z : Z) :
  Ascii.eqb c ","%char = true \/ Ascii.eqb c " "%char = true ->
  avoids c (dec_str z) = true.
Proof.
  intro Hc. unfold dec_str, NilEmpty.string_of_int.
  destruct (Z.to_int z) as [d|d]; [apply string_of_uint_avoids; exact Hc|].
  cbn [avoids str_forallb]. fold (avoids c (NilEmpty.string_of_uint d)).
  rewrite string_of_uint_avoids by exact Hc. rewrite andb_true_r.
  apply Bool.orb_true_iff in Hc.
  destruct c as [[] [] [] [] [] [] [] []]; try discriminate Hc; reflexivity.
Qed.

Lemma dec_str_inj (a b : Z) : dec_str a = dec_str b -> a = b.
Proof.
  intro H. unfold dec_str in H.
  assert (Hi : Z.to_int a = Z.to_int b).
  { apply (f_equal NilEmpty.int_of_string) in H. rewrite !NilEmpty.isi in H.
    injection H as H. exact H. }
  rewrite <- (DecimalZ.of_to a), <- (DecimalZ.of_to b), Hi. reflexivity.
Qed.

Lemma str_app_cancel_l (p s t : string) : (p ++ s = p ++ t)%string -> s = t.
Proof. induction p as [|ch p IH]; simpl; [auto|]. intro H. injection H as H. auto. Qed.

Lemma str_sep_cancel (c : Ascii.ascii) (u v w w' : string) :
  avoids c u = true -> avoids c v = true ->
  (u ++ String c w = v ++ String c w')%string -> u = v /\ w = w'.
Proof.
  revert v. induction u as [|ch u IH]; intros [|ch' v] Hu Hv H;
    unfold avoids in *; cbn [str_forallb append] in Hu, Hv, H.
  - injection H as H. auto.
  - injection H as -> _. rewrite Ascii.eqb_refl in Hv. discriminate.
  - injection H as <- _. rewrite Ascii.eqb_refl in Hu. discriminate.
  - injection H as -> H. apply andb_true_iff in Hu, Hv.
    destruct (IH v (proj2 Hu) (proj2 Hv) H) as [-> ->]. auto.
Qed.

Lemma split_list_raise_msg {A} (x : list A) (sizes : list Z) (m : string) :
  split_list x sizes = Raise (ValueError m) ->
  m = digit_limit_msg
  \/ m = split_list_text (dec_str (py_len x)) (dec_str (py_sum sizes)).
Proof.
  intro H. destruct (py_len x =? py_sum sizes) eqn:E.
  - unfold split_list in H. rewrite E in H. discriminate H.
  - apply Z.eqb_neq in E. rewrite (split_list_mismatch x sizes E) in H.
    destruct (fits_str_digits (py_len x) && fits_str_digits (py_sum sizes));
      injection H as H; auto.
Qed.

Definition msg_head : string := "List to be split has length ".
Definition msg_mid : string := " but requested sub-list with a total of ".
Definition msg_tail : string := "entries.".

Lemma split_list_text_shape (u v : string) :
  split_list_text u v
  = (msg_head ++ u ++ String ","%char
       (msg_mid ++ v ++ String " "%char msg_tail))%string.
Proof. reflexivity. Qed.

(** The message of the [ValueError] raised by [split_list] can be read
    back: two failing calls that raise the same message, other than
    CPython's digit-limit message, had the same list length and the same
    requested total. *)
Theorem split_list_msg_determines_totals {A B} (x1 : list A) (s1 : list Z)
    (x2 : list B) (s2 : list Z) (m : string) :
  m <> digit_limit_msg ->
  split_list x1 s1 = Raise (ValueError m) -> split_list x2 s2 = Raise (ValueError m) ->
  py_len x1 = py_len x2 /\ py_sum s1 = py_sum s2.
Proof.
  intros Hm H1 H2.
  destruct (split_list_raise_msg x1 s1 m H1) as [|E1]; [contradiction|].
  destruct (split_list_raise_msg x2 s2 m H2) as [|E2]; [contradiction|].
  rewrite E1 in E2. rewrite !split_list_text_shape in E2.
  apply str_app_cancel_l in E2.
  apply str_sep_cancel in E2 as [Ha H];
    [| apply dec_str_avoids; auto .. ].
  apply str_app_cancel_l in H.
  apply str_sep_cancel in H as [Hb _];
    [| apply dec_str_avoids; auto .. ].
  split; apply dec_str_inj; assumption.
Qed.

Lemma split_list_msg_determines_totals_witness :
  split_list_text "2" "1" <> digit_limit_msg
  /\ split_list [1;2] [1] = Raise (ValueError (split_list_text "2" "1"))
  /\ split_list [true;false] [0;1] = Raise (ValueError (split_list_text "2" "1"))
  /\ py_len [1;2] = py_len [true;false] /\ py_sum [1] = py_sum [0;1].
Proof.
  assert (H0 : split_list_text "2" "1" <> digit_limit_msg) by (intro E; discriminate E).
  assert (H1 : split_list [1;2] [1] = Raise (ValueError (split_list_text "2" "1")))
    by reflexivity.
  assert (H2 : split_list [true;false] [0;1] = Raise (ValueError (split_list_text "2" "1")))
    by reflexivity.
  split; [exact H0|]. split; [exact H1|]. split; [exact H2|].
  exact (split_list_msg_determines_totals [1;2] [1] [true;false] [0;1] _ H0 H1 H2).
Defined.

(** ** The blocking schemes of [test/test_hessian.py] *)

(** [BLOCKING_FNS["per-parameter"]]: [[1 for _ in range(len(params))]]. *)
Definition per_parameter {A} (params : list A) : list Z :=
  map (fun _ => 1) (seq 0 (length params)).

(** [BLOCKING_FNS["two-blocks"]]:
    [[1] if len(params) == 1 else [len(params) // 2, len(params) - len(params) // 2]]. *)
Definition two_blocks {A} (params : list A) : list Z :=
  if py_len params =? 1 then [1]
  else [py_len params / 2; py_len params - py_len params / 2].

Lemma per_parameter_cons {A} (p : A) (ps : list A) :
  per_parameter (p :: ps) = 1 :: per_parameter ps.
Proof.
  unfold per_parameter. simpl length. cbn [seq map].
  rewrite <- seq_shift, map_map. reflexivity.
Qed.

(** The "per-parameter" blocking is always accepted by [split_list] and
    puts every parameter in a block of its own. *)
Theorem split_list_per_parameter {A} (params : list A) :
  split_list params (per_parameter params) = Ok (map (fun p => [p]) params).
Proof.
  assert (Hs : Forall (fun s => 0 <= s) (per_parameter params)).
  { unfold per_parameter. apply Forall_map, Forall_forall. intros; lia. }
  assert (Hn : py_len params = py_sum (per_parameter params)).
  { clear Hs. induction params as [|p ps IH]; [reflexivity|].
    rewrite per_parameter_cons, py_sum_cons, <- IH. unfold py_len; simpl length; lia. }
  rewrite split_list_ok by assumption. f_equal. clear Hs Hn.
  induction params as [|p ps IH]; [reflexivity|].
  rewrite per_parameter_cons. cbn [chunks map].
  change (Z.to_nat 1) with 1%nat. cbn [firstn skipn]. rewrite IH. reflexivity.
Qed.

(** The "two-blocks" blocking is always accepted by [split_list]: a single
    parameter stays one block, otherwise the parameters are cut after the
    first [len(params) // 2] of them; the blocks concatenate back to the
    parameters. *)
Theorem split_list_two_blocks {A} (params : list A) :
  exists r, split_list params (two_blocks params) = Ok r
    /\ concat r = params
    /\ r = (if py_len params =? 1 then [params]
            else [firstn (Z.to_nat (py_len params / 2)) params;
                  skipn (Z.to_nat (py_len params / 2)) params]).
Proof.
  unfold two_blocks. destruct (py_len params =? 1) eqn:E.
  - apply Z.eqb_eq in E.
    assert (Hs : Forall (fun s => 0 <= s) [1]) by (repeat constructor; lia).
    assert (Hsum : py_len params = py_sum [1]) by (rewrite E; reflexivity).
    rewrite split_list_ok by assumption.
    eexists; split; [reflexivity|]. cbn [chunks]. simpl Z.to_nat.
    rewrite firstn_all2 by (unfold py_len in E; lia). simpl. rewrite app_nil_r.
    split; reflexivity.
  - set (n := py_len params).
    assert (Hn0 : 0 <= n) by (unfold n, py_len; lia).
    pose proof (Z.div_pos n 2 Hn0 ltac:(lia)).
    pose proof (Z.mul_div_le n 2 ltac:(lia)).
    assert (Hs : Forall (fun s => 0 <= s) [n / 2; n - n / 2]) by (repeat constructor; lia).
    assert (Hsum : py_len params = py_sum [n / 2; n - n / 2])
      by (unfold py_sum; simpl; fold n; lia).
    rewrite split_list_ok by assumption.
    eexists; split; [reflexivity|]. cbn [chunks].
    rewrite (firstn_all2 (n := Z.to_nat (n - n / 2)))
      by (rewrite length_skipn; unfold n, py_len in *; lia).
    split; [simpl; rewrite app_nil_r; apply firstn_skipn | reflexivity].
Qed.

